(** * pipeit: pipe notation for Python functions

    A shallow embedding of [pipeit.py].  The module turns an ordinary
    function into a factory of argument captures; a capture answers the
    reflected [|] operator ([__ror__]) by calling the function with the
    captured arguments and the piped value.

    Python objects are embedded as a small universe of values, function
    calls as computations in a state-and-exception monad.  The state holds
    what the claims need to observe: which classes exist (each call of
    [pipe], [pipe0] or [pipestar] executes a [class Wrapper] statement and
    so creates a new class), and the log of the calls made to plain
    functions. *)

From stdpp Require Import base strings list gmap.
From Stdlib Require Import ZArith Lia.

Set Warnings "-register-all".

Open Scope string_scope.
Open Scope list_scope.

(** ** Values *)

(** Which of the three [def]s of the module a class [Wrapper] (and the
    closure [wrapper] next to it) was created by. *)
Inductive wrapper_def : Type :=
  | def_pipe
  | def_pipe0
  | def_pipestar.

(** A plain function (a user function, a builtin) is known by its name; its
    body is looked up in an environment, see [fn_impl] below. *)
Definition fid : Type := string.

(** The keyword arguments of a call: a [dict] with string keys, in
    insertion order. *)
Definition kwargs_of (V : Type) : Type := list (string * V).

Inductive value : Type :=
  | VNone
  | VBool (b : bool)
  | VInt (z : Z)
  | VStr (s : string)
  | VList (xs : list value)
  | VTuple (xs : list value)
  | VFun (f : fid)
  (** the closure [wrapper] returned by [pipe(func)], [pipe0(func)] or
      [pipestar(func)]; [cls] is the class [Wrapper] it closes over *)
  | VFactory (cls : nat) (d : wrapper_def) (func : value)
  (** an instance of a class [Wrapper]: the class (its identity [cls], the
      [def] it was created in and the [func] it closes over) and the two
      slots [args] and [kwargs] *)
  | VWrapper (cls : nat) (d : wrapper_def) (func : value)
             (args : list value) (kwargs : kwargs_of value).

Abbreviation kwargs_t := (kwargs_of value).

(** [type(v).__name__] *)
Definition type_name (v : value) : string :=
  match v with
  | VNone => "NoneType"
  | VBool _ => "bool"
  | VInt _ => "int"
  | VStr _ => "str"
  | VList _ => "list"
  | VTuple _ => "tuple"
  | VFun _ => "function"
  | VFactory _ _ _ => "function"
  | VWrapper _ _ _ _ _ => "Wrapper"
  end.

(** ** Exceptions, state, computations *)

Inductive exn : Type :=
  | Exn (cls : string) (msg : string).

Definition TypeError (msg : string) : exn := Exn "TypeError" msg.
Definition AttributeError (msg : string) : exn := Exn "AttributeError" msg.

Inductive outcome (A : Type) : Type :=
  | Return (a : A)
  | Raise (e : exn).
Arguments Return {A} a.
Arguments Raise {A} e.

(** One entry of the call log: a plain function was entered with these
    positional and keyword arguments. *)
Record call : Type := Call {
  call_fn : fid;
  call_args : list value;
  call_kwargs : kwargs_t
}.

Record state : Type := State {
  next_class : nat;       (* the classes [0 .. next_class - 1] exist *)
  call_log : list call    (* the calls made so far, oldest first *)
}.

Definition M (A : Type) : Type := state -> outcome A * state.

Definition ret {A} (a : A) : M A := fun s => (Return a, s).
Definition raise {A} (e : exn) : M A := fun s => (Raise e, s).
Definition bind {A B} (m : M A) (k : A -> M B) : M B :=
  fun s =>
    match m s with
    | (Return a, s') => k a s'
    | (Raise e, s') => (Raise e, s')
    end.

Declare Scope py_scope.
Delimit Scope py_scope with py.
Notation "x <- m ;; k" := (bind m (fun x => k))
  (at level 100, m at next level, right associativity) : py_scope.
Open Scope py_scope.

(** A [for] loop that threads an accumulator and stops at the first
    exception. *)
Fixpoint for_each {A B} (body : A -> B -> M A) (acc : A) (xs : list B) : M A :=
  match xs with
  | [] => ret acc
  | x :: xs' => acc' <- body acc x ;; for_each body acc' xs'
  end.

(** The body of a plain function. *)
Definition pyfun : Type := list value -> kwargs_t -> M value.

Definition record_call (f : fid) (args : list value) (kwargs : kwargs_t)
    (s : state) : state :=
  {| next_class := next_class s;
     call_log := call_log s ++ [Call f args kwargs] |}.

(** The [class Wrapper] statement: a new class comes into being. *)
Definition new_class : M nat :=
  fun s => (Return (next_class s),
            {| next_class := S (next_class s); call_log := call_log s |}).

(** [*arg] in a call: the elements of an iterable, in order. *)
Fixpoint chars (s : string) : list value :=
  match s with
  | EmptyString => []
  | String c s' => VStr (String c EmptyString) :: chars s'
  end.

Definition elements_of (v : value) : option (list value) :=
  match v with
  | VStr s => Some (chars s)
  | VList xs => Some xs
  | VTuple xs => Some xs
  | _ => None
  end.


Definition not_iterable (v : value) : exn :=
  TypeError ("argument after * must be an iterable, not " +:+ type_name v).

Definition unpack (v : value) : M (list value) :=
  match elements_of v with
  | Some xs => ret xs
  | None => raise (not_iterable v)
  end.

(** What the module takes from its surroundings: the bodies of the plain
    functions (arbitrary computations), and the standard library it imports
    from, each module a table from attribute names to values. *)
Class Env : Type := {
  fn_impl : fid -> pyfun;
  builtins : gmap string value;
  itertools : gmap string value;
  functools : gmap string value;
  str_join : value
}.

Section Pipeit.

Context {env : Env}.

(** ** The source, definition by definition *)

(** [Wrapper.__new__(cls, args, kwargs)] (lines 55-59, 84-88, 107-111):
    a fresh instance of [cls] whose two slots hold the arguments as given. *)
Definition Wrapper___new__ (cls : nat) (d : wrapper_def) (func : value)
    (args : list value) (kwargs : kwargs_t) : M value :=
  ret (VWrapper cls d func args kwargs).

(** The closure [wrapper( *args, **kwargs)] (lines 63-64, 92-93, 115-116):
    [return Wrapper(args, kwargs)]. *)
Definition wrapper (cls : nat) (d : wrapper_def) (func : value)
    (args : list value) (kwargs : kwargs_t) : M value :=
  Wrapper___new__ cls d func args kwargs.

(** A call [callee( *args, **kwargs)].  A plain function is entered (the
    call is logged, then its body runs); a factory is the closure
    [wrapper]; nothing else in this universe has a [__call__], an instance
    of [Wrapper] included (the three classes define [__new__] and
    [__ror__] only). *)
Definition call_value (callee : value) (args : list value)
    (kwargs : kwargs_t) : M value :=
  match callee with
  | VFun f => fun s => fn_impl f args kwargs (record_call f args kwargs s)
  | VFactory cls d func => wrapper cls d func args kwargs
  | _ => raise (TypeError ("'" +:+ type_name callee
                           +:+ "' object is not callable"))
  end.

(** [pipe.Wrapper.__ror__] (lines 60-61):
    [return func( *self.args, arg, **self.kwargs)]. *)
Definition pipe_Wrapper___ror__ (func : value) (self_args : list value)
    (self_kwargs : kwargs_t) (arg : value) : M value :=
  call_value func (self_args ++ [arg]) self_kwargs.

(** [pipe0.Wrapper.__ror__] (lines 89-90):
    [return func( *self.args, arg, **self.kwargs)]. *)
Definition pipe0_Wrapper___ror__ (func : value) (self_args : list value)
    (self_kwargs : kwargs_t) (arg : value) : M value :=
  call_value func (self_args ++ [arg]) self_kwargs.

(** [pipestar.Wrapper.__ror__] (lines 112-113):
    [return func( *self.args, *arg, **self.kwargs)].  The arguments are
    assembled before the call, so a piped value that cannot be unpacked
    raises before [func] is looked at. *)
Definition pipestar_Wrapper___ror__ (func : value) (self_args : list value)
    (self_kwargs : kwargs_t) (arg : value) : M value :=
  xs <- unpack arg ;;
  call_value func (self_args ++ xs) self_kwargs.

(** Method lookup of [__ror__] on an instance of [Wrapper]. *)
Definition Wrapper___ror__ (d : wrapper_def) : value -> list value ->
    kwargs_t -> value -> M value :=
  match d with
  | def_pipe => pipe_Wrapper___ror__
  | def_pipe0 => pipe0_Wrapper___ror__
  | def_pipestar => pipestar_Wrapper___ror__
  end.

(** [def pipe(func)] (lines 30-65): the class statement, then the closure.
    [functools.wraps] copies the name and the docstring of [func] onto the
    closure and changes nothing of what a call does. *)
Definition pipe (func : value) : M value :=
  cls <- new_class ;;
  ret (VFactory cls def_pipe func).

(** [def pipe0(func)] (lines 67-94). *)
Definition pipe0 (func : value) : M value :=
  cls <- new_class ;;
  ret (VFactory cls def_pipe0 func).

(** [def pipestar(func)] (lines 96-117). *)
Definition pipestar (func : value) : M value :=
  cls <- new_class ;;
  ret (VFactory cls def_pipestar func).

(** ** The binary operator [v | w]

    Python first asks the left operand: [type(v).__or__(v, w)].  Of the
    values here only [bool] and [int] have an [__or__] that accepts
    anything of this universe, and only another [bool] or [int]; for every
    other right operand the answer is [NotImplemented] ([None] below).
    Python then asks the right operand for [type(w).__ror__(w, v)], but
    only when the two operands are of different types (Python data model,
    3.3.8: the reflected methods are only called if the left operand does
    not support the operation and the operands are of different types).
    When neither answers, the operator raises [TypeError]. *)
Definition b2z (b : bool) : Z := if b then 1%Z else 0%Z.

Definition nb_or (v w : value) : option value :=
  match v, w with
  | VBool a, VBool b => Some (VBool (a || b))
  | VBool a, VInt b => Some (VInt (Z.lor (b2z a) b))
  | VInt a, VBool b => Some (VInt (Z.lor a (b2z b)))
  | VInt a, VInt b => Some (VInt (Z.lor a b))
  | _, _ => None
  end.

(** [type(v) is C] for the class [Wrapper] numbered [cls]. *)
Definition instance_of (cls : nat) (v : value) : bool :=
  match v with
  | VWrapper cls' _ _ _ _ => Nat.eqb cls' cls
  | _ => false
  end.

Definition unsupported_or (v w : value) : exn :=
  TypeError ("unsupported operand type(s) for |: '" +:+ type_name v
             +:+ "' and '" +:+ type_name w +:+ "'").

Definition binary_or (v w : value) : M value :=
  match nb_or v w with
  | Some r => ret r
  | None =>
      match w with
      | VWrapper cls d func args kwargs =>
          if instance_of cls v then raise (unsupported_or v w)
          else Wrapper___ror__ d func args kwargs v
      | _ => raise (unsupported_or v w)
      end
  end.

(** The three entry points, by the [def] they stand for. *)
Definition wrap_with (d : wrapper_def) : value -> M value :=
  match d with
  | def_pipe => pipe
  | def_pipe0 => pipe0
  | def_pipestar => pipestar
  end.

(** ** The registration code at module level (lines 119-139) *)

(** The namespace of the module: its globals ([_g = globals()]) and the
    list [__all__]. *)
Record module_ns : Type := ModuleNs {
  globals : gmap string value;
  __all__ : list string
}.

(** [getattr(module, name)] *)
Definition getattr (modname : string) (module : gmap string value)
    (name : string) : M value :=
  match module !! name with
  | Some v => ret v
  | None => raise (AttributeError ("module '" +:+ modname
                                   +:+ "' has no attribute '" +:+ name +:+ "'"))
  end.

(** One round of a registration loop, with [name] the loop variable (a
    global, like every name bound at module level):
    [_g[name] = _g['p'+name] = wrap(getattr(module, name))] and
    [__all__.append('p'+name)].  The right-hand side is evaluated first,
    the targets are assigned from left to right. *)
Definition register (wrap : value -> M value) (modname : string)
    (module : gmap string value) (ns : module_ns) (name : string)
    : M module_ns :=
  f <- getattr modname module name ;;
  w <- wrap f ;;
  ret {| globals := <["p" +:+ name := w]>
                      (<[name := w]> (<["name" := VStr name]> (globals ns)));
         __all__ := __all__ ns ++ ["p" +:+ name] |}.

Definition builtins_pipe_names : list string :=
  String.words ("all any dict enumerate filter len list min map max "
                +:+ "reversed set sum tuple zip").
Definition builtins_pipestar_names : list string := String.words "print".
Definition itertools_names : list string :=
  String.words ("accumulate chain compress cycle dropwhile filterfalse groupby "
                +:+ "product repeat starmap takewhile tee zip_longest").
Definition functools_names : list string := String.words "reduce".

(** Lines 120-139.  [_g] is the dictionary of the globals itself; the key
    ['_g'] is bound on line 119 and deleted on line 139. *)
Definition module_body (ns0 : module_ns) : M module_ns :=
  ns <- for_each (register pipe "builtins" builtins) ns0 builtins_pipe_names ;;
  ns <- for_each (register pipestar "builtins" builtins) ns
          builtins_pipestar_names ;;
  w <- pipe str_join ;;
  ns <- ret {| globals := <["pjoin" := w]> (<["join" := w]> (globals ns));
               __all__ := __all__ ns ++ ["pjoin"] |} ;;
  ns <- for_each (register pipe "itertools" itertools) ns itertools_names ;;
  ns <- for_each (register pipe "functools" functools) ns functools_names ;;
  ret {| globals := delete "_g" (globals ns); __all__ := __all__ ns |}.

(** The module from line 8 on: [__all__ = ['pipe', 'pipe0', 'pipestar']],
    and [g0] the globals bound by the imports and the three [def]s. *)
Definition module_init (g0 : gmap string value) : M module_ns :=
  module_body {| globals := g0; __all__ := ["pipe"; "pipe0"; "pipestar"] |}.

(** ** Pipe expressions, as they are written at a call site *)

(** [x | fac( *args, **kwargs)]: the factory is called, the capture it
    returns is the right operand of [|]. *)
Definition pipe_into (x fac : value) (args : list value) (kwargs : kwargs_t)
    : M value :=
  capture <- call_value fac args kwargs ;;
  binary_or x capture.

(** [x | wrap(f)( *args, **kwargs)] with [wrap] one of [pipe], [pipe0],
    [pipestar], all in one expression: [x] is there before the factory is
    made. *)
Definition pipe_expr (wrap : value -> M value) (x f : value)
    (args : list value) (kwargs : kwargs_t) : M value :=
  fac <- wrap f ;;
  pipe_into x fac args kwargs.

(** ** Vocabulary of the statements *)

(** The state right after a [class Wrapper] statement. *)
Definition class_created (s : state) : state :=
  {| next_class := S (next_class s); call_log := call_log s |}.

(** A value that is there in state [s]: when it is a capture or a factory,
    its class has been created. *)
Definition exists_in (s : state) (v : value) : bool :=
  match v with
  | VFactory cls _ _ => Nat.ltb cls (next_class s)
  | VWrapper cls _ _ _ _ => Nat.ltb cls (next_class s)
  | _ => true
  end.

(** The slots of a capture, [self.args] and [self.kwargs]. *)
Definition slot_args (v : value) : option (list value) :=
  match v with
  | VWrapper _ _ _ args _ => Some args
  | _ => None
  end.

Definition slot_kwargs (v : value) : option kwargs_t :=
  match v with
  | VWrapper _ _ _ _ kwargs => Some kwargs
  | _ => None
  end.

(** The positional arguments a capture made in [def] [d] passes to its
    function when [arg] is piped in, if they can be assembled. *)
Definition positional (d : wrapper_def) (self_args : list value)
    (arg : value) : option (list value) :=
  match d with
  | def_pipe | def_pipe0 => Some (self_args ++ [arg])
  | def_pipestar => (fun xs => self_args ++ xs) <$> elements_of arg
  end.

(** The namespace binds both [name] and ['p'+name] to one factory, made in
    [def] [d] around [target]. *)
Definition exposes (ns : module_ns) (name : string) (d : wrapper_def)
    (target : value) : Prop :=
  exists cls,
    globals ns !! name = Some (VFactory cls d target) /\
    globals ns !! ("p" +:+ name) = Some (VFactory cls d target).

(** The keys a registration loop over [names] writes. *)
Definition written_keys (names : list string) : list string :=
  "name" :: flat_map (fun n => [n; "p" +:+ n]) names.

(** Two namespaces agree on every key outside [K]. *)
Definition same_outside (K : list string) (ns ns' : module_ns) : Prop :=
  forall k, k ∉ K -> globals ns' !! k = globals ns !! k.

(** Neither [n] nor ['p'+n] is among the keys [K]. *)
Definition untouched_by (K : list string) (n : string) : Prop :=
  (n ∉ K) /\ ("p" +:+ n ∉ K).

(** The keys written after a registration step, up to the end of the
    module: after the loop on [functools] (line 139 only), after the loop
    on [itertools], after lines 127-128, after the loop on [print], after
    the first loop. *)
Definition keys_after_functools : list string := ["_g"].
Definition keys_after_itertools : list string :=
  written_keys functools_names ++ keys_after_functools.
Definition keys_after_join : list string :=
  written_keys itertools_names ++ keys_after_itertools.
Definition keys_after_print : list string :=
  ["join"; "pjoin"] ++ keys_after_join.
Definition keys_after_builtins : list string :=
  written_keys builtins_pipestar_names ++ keys_after_print.

(** [acc = initial; for x in xs: acc = f(acc, x)] *)
Definition fold_calls (f : value) (initial : value) (xs : list value)
    : M value :=
  for_each (fun acc x => call_value f [acc; x] []) initial xs.

(** ** Chains of pipes *)







(** ** More vocabulary for the registration code *)

(** The registered names, in the order of the source. *)
Definition all_registered : list string :=
  builtins_pipe_names ++ builtins_pipestar_names ++ ["join"]
  ++ itertools_names ++ functools_names.

(** Every key the module body writes or deletes. *)
Definition module_keys : list string :=
  written_keys builtins_pipe_names ++ keys_after_builtins.

(** The standard library has every name the module looks up. *)
Definition library_complete : Prop :=
  Forall (fun n => is_Some (builtins !! n))
    (builtins_pipe_names ++ builtins_pipestar_names) /\
  Forall (fun n => is_Some (itertools !! n)) itertools_names /\
  Forall (fun n => is_Some (functools !! n)) functools_names.

(** The namespace after lines 127-128, and after line 139. *)
Definition bind_join (ns : module_ns) (w : value) : module_ns :=
  {| globals := <["pjoin" := w]> (<["join" := w]> (globals ns));
     __all__ := __all__ ns ++ ["pjoin"] |}.

Definition del_g (ns : module_ns) : module_ns :=
  {| globals := delete "_g" (globals ns); __all__ := __all__ ns |}.

(** ** A stand-in for [functools.reduce]

    The fold of the standard library as its documentation gives it, with
    [initial] accepted by position or (Python 3.14, and the pure Python
    fallback of [functools]) by keyword.  It is used by the examples only;
    the statements below are about any environment. *)
Definition iter_elements (v : value) : M (list value) :=
  match elements_of v with
  | Some xs => ret xs
  | None => raise (TypeError ("'" +:+ type_name v
                              +:+ "' object is not iterable"))
  end.

Definition functools_reduce : pyfun := fun args kwargs =>
  match args, kwargs with
  | [function; iterable], [(k, initial)] =>
      if String.eqb k "initial"
      then xs <- iter_elements iterable ;; fold_calls function initial xs
      else raise (TypeError "reduce() got an unexpected keyword argument")
  | [function; iterable; initial], [] =>
      xs <- iter_elements iterable ;; fold_calls function initial xs
  | [function; iterable], [] =>
      xs <- iter_elements iterable ;;
      match xs with
      | [] => raise (TypeError
                       "reduce() of empty iterable with no initial value")
      | x :: xs' => fold_calls function x xs'
      end
  | _, _ => raise (TypeError "reduce() takes 2 or 3 arguments")
  end.

End Pipeit.

(** ** A concrete environment, for the examples *)

Module Example.

(** [def probe( *args, **kwargs): return args, list(kwargs.items())] *)
Definition probe : pyfun := fun args kwargs =>
  ret (VTuple [VTuple args;
               VList ((fun kv => VTuple [VStr kv.1; kv.2]) <$> kwargs)]).

(** [def add(a, b): return a + b], on integers *)
Definition add : pyfun := fun args kwargs =>
  match args, kwargs with
  | [VInt a; VInt b], [] => ret (VInt (a + b))
  | _, _ => raise (TypeError "add() expects two integers")
  end.

(** [def boom( *args, **kwargs): raise ValueError('boom')] *)
Definition boom : pyfun := fun _ _ => raise (Exn "ValueError" "boom").

(** [sum(x for x in xs if x < n)], the body of the two doctests. *)
Fixpoint sum_if_less (n : value) (xs : list value) (acc : Z) : M value :=
  match xs with
  | [] => ret (VInt acc)
  | VInt x :: xs' =>
      match n with
      | VInt n' => sum_if_less n xs' (if (x <? n')%Z then (acc + x)%Z else acc)
      | _ => raise (TypeError "'<' not supported between these instances")
      end
  | _ :: _ => raise (TypeError "'<' not supported between these instances")
  end.

Definition not_iterable_in_for (v : value) : exn :=
  TypeError ("'" +:+ type_name v +:+ "' object is not iterable").

(** The doctest function of [pipe] (lines 36-38):
    [def add_if_less(n, xs): return sum(x for x in xs if x<n)] *)
Definition add_if_less : pyfun := fun args kwargs =>
  match args, kwargs with
  | [n; xs], [] =>
      match elements_of xs with
      | Some els => sum_if_less n els 0
      | None => raise (not_iterable_in_for xs)
      end
  | _, _ => raise (TypeError "add_if_less() takes 2 positional arguments")
  end.

(** The doctest function of [pipe0] (lines 75-77):
    [def add_if_less(xs, n): return sum(x for x in xs if x<n)] *)
Definition add_if_less0 : pyfun := fun args kwargs =>
  match args, kwargs with
  | [xs; n], [] =>
      match elements_of xs with
      | Some els => sum_if_less n els 0
      | None => raise (not_iterable_in_for xs)
      end
  | _, _ => raise (TypeError "add_if_less() takes 2 positional arguments")
  end.

Definition user_impl (f : fid) : pyfun :=
  if String.eqb f "probe" then probe
  else if String.eqb f "add" then add
  else if String.eqb f "boom" then boom
  else if String.eqb f "add_if_less" then add_if_less
  else if String.eqb f "add_if_less0" then add_if_less0
  else fun _ _ => raise (Exn "NotImplementedError" f).

(** A module of the standard library: each name is bound to the plain
    function of that qualified name. *)
Definition module_table (modname : string) (names : list string)
    : gmap string value :=
  list_to_map ((fun n => (n, VFun (modname +:+ "." +:+ n))) <$> names).

Definition user_env : Env :=
  {| fn_impl := user_impl;
     builtins := module_table "builtins"
       (builtins_pipe_names ++ builtins_pipestar_names);
     itertools := module_table "itertools" itertools_names;
     functools := module_table "functools" functools_names;
     str_join := VFun "str.join" |}.

(** The same, with [functools.reduce] running the stand-in; the callbacks
    of the fold are user functions. *)
Definition py_env : Env :=
  {| fn_impl := fun f =>
       if String.eqb f "functools.reduce"
       then @functools_reduce user_env
       else user_impl f;
     builtins := @builtins user_env;
     itertools := @itertools user_env;
     functools := @functools user_env;
     str_join := @str_join user_env |}.

(** A standard library whose [itertools] has no [zip_longest]. *)
Definition bare_env : Env :=
  {| fn_impl := user_impl;
     builtins := @builtins user_env;
     itertools := delete "zip_longest" (@itertools user_env);
     functools := @functools user_env;
     str_join := @str_join user_env |}.

Definition s0 : state := {| next_class := 0; call_log := [] |}.

(** The state after one factory has been made, and captures of that
    factory: [pf = pipe(probe)], [pf(1)], and [pb = pipe(boom)], [pb(5)]. *)
Definition s1 : state := {| next_class := 1; call_log := [] |}.


(** [range(10)], as the list of its elements *)
Definition range10 : value := VList (VInt <$> [0; 1; 2; 3; 4; 5; 6; 7; 8; 9]%Z).

End Example.

(** * Properties *)

(** A decidable statement about concrete names, settled by evaluation. *)
Ltac by_evaluation := apply (bool_decide_unpack _); vm_compute; exact I.

(** The same for the names a concrete standard library has. *)
Ltac library_by_evaluation :=
  unfold library_complete; repeat split; by_evaluation.

Section PipeitProperties.

Context {env : Env}.

Lemma wrap_with_run d f s :
  wrap_with d f s = (Return (VFactory (next_class s) d f), class_created s).
Proof. by destruct d. Qed.

Lemma pipe_into_factory x cls d f args kwargs s :
  pipe_into x (VFactory cls d f) args kwargs s
  = binary_or x (VWrapper cls d f args kwargs) s.
Proof. reflexivity. Qed.

Lemma pipe_expr_run d x f args kwargs s :
  pipe_expr (wrap_with d) x f args kwargs s
  = binary_or x (VWrapper (next_class s) d f args kwargs) (class_created s).
Proof. by destruct d. Qed.

Lemma nb_or_wrapper v cls d f args kwargs :
  nb_or v (VWrapper cls d f args kwargs) = None.
Proof. by destruct v. Qed.

(** The operator reaches [__ror__] exactly when the left operand is not an
    instance of the class of the capture. *)
Lemma binary_or_capture x cls d f args kwargs :
  binary_or x (VWrapper cls d f args kwargs)
  = if instance_of cls x
    then raise (unsupported_or x (VWrapper cls d f args kwargs))
    else Wrapper___ror__ d f args kwargs x.
Proof. unfold binary_or. by rewrite nb_or_wrapper. Qed.

Lemma exists_in_not_instance s x :
  exists_in s x = true -> instance_of (next_class s) x = false.
Proof.
  destruct x; simpl; try done.
  intros H%Nat.ltb_lt. apply Nat.eqb_neq. lia.
Qed.

Lemma ror_positional d f args kwargs x full :
  positional d args x = Some full ->
  Wrapper___ror__ d f args kwargs x = call_value f full kwargs.
Proof.
  destruct d; simpl.
  - by intros [= <-].
  - by intros [= <-].
  - unfold pipestar_Wrapper___ror__, unpack.
    destruct (elements_of x) as [xs|]; simpl; [|done]. by intros [= <-].
Qed.

(** What [x | wrap(f)( *args, **kwargs)] does when the piped value is there
    before the expression is evaluated: the function is called with the
    positional arguments of the [def], in the state where the class of the
    factory exists. *)
Lemma pipe_expr_positional d x f args kwargs full s :
  exists_in s x = true ->
  positional d args x = Some full ->
  pipe_expr (wrap_with d) x f args kwargs s
  = call_value f full kwargs (class_created s).
Proof.
  intros Hx Hfull. rewrite pipe_expr_run, binary_or_capture.
  rewrite (exists_in_not_instance s x Hx).
  by rewrite (ror_positional _ _ _ _ _ _ Hfull).
Qed.

(** ** The three wrappers *)



(** C4. Calling a factory made by [pipe], [pipe0] or [pipestar] returns a
    capture and leaves the state as it is: no function is entered, nothing
    is raised, whatever the function and the arguments are.  The capture
    holds the positional and the keyword arguments as given.  Making the
    factory enters no function either. *)
Theorem capture_creation_is_pure d f args kwargs s :
  exists fac capture,
    wrap_with d f s = (Return fac, class_created s) /\
    call_log (class_created s) = call_log s /\
    (forall s', call_value fac args kwargs s' = (Return capture, s')) /\
    slot_args capture = Some args /\
    slot_kwargs capture = Some kwargs.
Proof.
  exists (VFactory (next_class s) d f),
         (VWrapper (next_class s) d f args kwargs).
  by rewrite wrap_with_run.
Qed.

(** C7. A capture is not callable: calling it raises [TypeError], enters no
    function and leaves the state as it is, whatever class it is of and
    whatever it is called with. *)
Theorem capture_is_not_callable cls d f args kwargs cargs ckwargs s :
  call_value (VWrapper cls d f args kwargs) cargs ckwargs s
  = (Raise (TypeError "'Wrapper' object is not callable"), s).
Proof. reflexivity. Qed.

(** C8. [x | pipe0(f)( *args, **kwargs)] and [x | pipe(f)( *args, **kwargs)]
    are the same computation: same outcome, same calls, same final state. *)
Theorem pipe0_same_as_pipe f args kwargs x s :
  pipe_expr pipe0 x f args kwargs s = pipe_expr pipe x f args kwargs s.
Proof.
  rewrite (pipe_expr_run def_pipe0), (pipe_expr_run def_pipe).
  by rewrite !binary_or_capture.
Qed.

(** ** The operator on an existing capture *)

Lemma binary_or_positional cls d f args kwargs x full s :
  instance_of cls x = false ->
  positional d args x = Some full ->
  binary_or x (VWrapper cls d f args kwargs) s = call_value f full kwargs s.
Proof.
  intros Hcls Hfull. rewrite binary_or_capture, Hcls.
  by rewrite (ror_positional _ _ _ _ _ _ Hfull).
Qed.




(** ** The registration code *)

Lemma bind_return {A B} (m : M A) (k : A -> M B) s a s' :
  m s = (Return a, s') -> bind m k s = k a s'.
Proof. unfold bind. by intros ->. Qed.

(** One round of a loop, when the module has the name. *)
Lemma register_run d modname module ns name target s :
  module !! name = Some target ->
  register (wrap_with d) modname module ns name s
  = (Return {| globals :=
                 <["p" +:+ name := VFactory (next_class s) d target]>
                   (<[name := VFactory (next_class s) d target]>
                      (<["name" := VStr name]> (globals ns)));
               __all__ := __all__ ns ++ ["p" +:+ name] |},
     class_created s).
Proof.
  intros Ht. unfold register, bind, getattr. rewrite Ht. simpl.
  by rewrite wrap_with_run.
Qed.

Lemma p_name_ne (n : string) : "p" +:+ n <> n.
Proof.
  intros H. apply (f_equal String.length) in H.
  cbv [String.append] in H. simpl in H. lia.
Qed.

Lemma exposes_frame ns ns' n d t :
  exposes ns n d t ->
  globals ns' !! n = globals ns !! n ->
  globals ns' !! ("p" +:+ n) = globals ns !! ("p" +:+ n) ->
  exposes ns' n d t.
Proof.
  intros (cls & H1 & H2) E1 E2. exists cls. by rewrite E1, E2.
Qed.

(** A whole loop, by induction on the names: it ends without an exception
    and enters no function; every key it does not write is as before;
    ['p'+name] is appended to [__all__] for every name, in order; and every
    name of the loop is exposed, provided no key is written twice. *)
Lemma register_loop d modname module names : forall ns s,
  Forall (fun n => is_Some (module !! n)) names ->
  NoDup (written_keys names) ->
  exists ns' s',
    for_each (register (wrap_with d) modname module) ns names s
    = (Return ns', s') /\
    call_log s' = call_log s /\
    same_outside (written_keys names) ns ns' /\
    __all__ ns' = __all__ ns ++ (String.append "p" <$> names) /\
    (forall n, n ∈ names ->
               exists t, module !! n = Some t /\ exposes ns' n d t).
Proof.
  induction names as [|n rest IH]; intros ns s Hall Hnd.
  - exists ns, s. repeat split; try done.
    + simpl. by rewrite app_nil_r.
    + intros n Hn. by apply elem_of_nil in Hn.
  - apply Forall_cons in Hall as [[t Ht] Hall].
    unfold written_keys in Hnd. simpl in Hnd.
    apply NoDup_cons in Hnd as [Hname Hnd].
    apply NoDup_cons in Hnd as [Hn Hnd].
    apply NoDup_cons in Hnd as [Hpn Hnd].
    apply not_elem_of_cons in Hname as [Hname1 Hname].
    apply not_elem_of_cons in Hname as [Hname2 Hname].
    apply not_elem_of_cons in Hn as [Hn1 Hn].
    assert (Hrest : NoDup (written_keys rest)).
    { unfold written_keys. by apply NoDup_cons. }
    simpl. rewrite (bind_return _ _ _ _ _ (register_run _ _ _ _ _ _ _ Ht)).
    destruct (IH {| globals :=
                      <["p" +:+ n := VFactory (next_class s) d t]>
                        (<[n := VFactory (next_class s) d t]>
                           (<["name" := VStr n]> (globals ns)));
                    __all__ := __all__ ns ++ ["p" +:+ n] |}
                 (class_created s) Hall Hrest)
      as (ns' & s' & Hrun & Hlog & Hframe & Hall' & Hexp).
    exists ns', s'. split; [exact Hrun|]. split; [by rewrite Hlog|].
    split; [|split].
    + intros k Hk. unfold written_keys in Hk. simpl in Hk.
      apply not_elem_of_cons in Hk as [Hk1 Hk].
      apply not_elem_of_cons in Hk as [Hk2 Hk].
      apply not_elem_of_cons in Hk as [Hk3 Hk].
      rewrite Hframe by (by apply not_elem_of_cons). simpl.
      by rewrite !lookup_insert_ne.
    + rewrite Hall'. simpl. by rewrite <- app_assoc.
    + intros m [->|Hm]%elem_of_cons; [|by apply Hexp].
      exists t. split; [done|].
      exists (next_class s).
      rewrite !Hframe by (apply not_elem_of_cons; split; congruence).
      simpl. rewrite lookup_insert_ne by apply p_name_ne.
      by rewrite !lookup_insert_eq.
Qed.

Lemma same_outside_trans K1 K2 ns1 ns2 ns3 :
  same_outside K1 ns1 ns2 -> same_outside K2 ns2 ns3 ->
  same_outside (K1 ++ K2) ns1 ns3.
Proof.
  intros H1 H2 k [Hk1 Hk2]%not_elem_of_app. by rewrite H2, H1.
Qed.

Lemma exposes_same_outside K ns ns' names (module : gmap string value) d :
  same_outside K ns ns' ->
  Forall (untouched_by K) names ->
  (forall n, n ∈ names ->
             exists t, module !! n = Some t /\ exposes ns n d t) ->
  forall n, n ∈ names ->
            exists t, module !! n = Some t /\ exposes ns' n d t.
Proof.
  intros Hframe Hun Hexp n Hn.
  destruct (Hexp n Hn) as (t & Ht & He). exists t. split; [done|].
  rewrite Forall_forall in Hun. destruct (Hun n Hn) as [H1 H2].
  apply (exposes_frame ns); auto.
Qed.

(** No loop writes a key twice, and no step writes a key that an earlier
    step has bound to a factory.  The names are those of the source, so
    these are facts about concrete strings. *)
Lemma builtins_pipe_keys_nodup :
  NoDup (written_keys builtins_pipe_names).
Proof. by_evaluation. Qed.

Lemma builtins_pipestar_keys_nodup :
  NoDup (written_keys builtins_pipestar_names).
Proof. by_evaluation. Qed.

Lemma itertools_keys_nodup : NoDup (written_keys itertools_names).
Proof. by_evaluation. Qed.

Lemma functools_keys_nodup : NoDup (written_keys functools_names).
Proof. by_evaluation. Qed.

Lemma builtins_pipe_untouched :
  Forall (untouched_by keys_after_builtins) builtins_pipe_names.
Proof. by_evaluation. Qed.

Lemma builtins_pipestar_untouched :
  Forall (untouched_by keys_after_print) builtins_pipestar_names.
Proof. by_evaluation. Qed.

Lemma join_untouched : untouched_by keys_after_join "join".
Proof. by_evaluation. Qed.

Lemma itertools_untouched :
  Forall (untouched_by keys_after_itertools) itertools_names.
Proof. by_evaluation. Qed.

Lemma functools_untouched :
  Forall (untouched_by keys_after_functools) functools_names.
Proof. by_evaluation. Qed.

(** The module body as a whole. *)
Lemma module_init_spec g0 s :
  Forall (fun n => is_Some (builtins !! n))
    (builtins_pipe_names ++ builtins_pipestar_names) ->
  Forall (fun n => is_Some (itertools !! n)) itertools_names ->
  Forall (fun n => is_Some (functools !! n)) functools_names ->
  exists ns s',
    module_init g0 s = (Return ns, s') /\
    call_log s' = call_log s /\
    __all__ ns
    = ["pipe"; "pipe0"; "pipestar"]
      ++ (String.append "p" <$>
            builtins_pipe_names ++ builtins_pipestar_names ++ ["join"]
            ++ itertools_names ++ functools_names) /\
    (forall n, n ∈ builtins_pipe_names ->
       exists t, builtins !! n = Some t /\ exposes ns n def_pipe t) /\
    (forall n, n ∈ builtins_pipestar_names ->
       exists t, builtins !! n = Some t /\ exposes ns n def_pipestar t) /\
    exposes ns "join" def_pipe str_join /\
    (forall n, n ∈ itertools_names ->
       exists t, itertools !! n = Some t /\ exposes ns n def_pipe t) /\
    (forall n, n ∈ functools_names ->
       exists t, functools !! n = Some t /\ exposes ns n def_pipe t).
Proof.
  intros [Hb1 Hb2]%Forall_app Hi Hf.
  set (ns0 := {| globals := g0; __all__ := ["pipe"; "pipe0"; "pipestar"] |}).
  destruct (register_loop def_pipe "builtins" builtins _ ns0 s Hb1
              builtins_pipe_keys_nodup)
    as (ns1 & s1 & R1 & L1 & F1 & A1 & E1).
  destruct (register_loop def_pipestar "builtins" builtins _ ns1 s1 Hb2
              builtins_pipestar_keys_nodup)
    as (ns2 & s2 & R2 & L2 & F2 & A2 & E2).
  set (w := VFactory (next_class s2) def_pipe str_join).
  set (ns3 := {| globals := <["pjoin" := w]> (<["join" := w]> (globals ns2));
                 __all__ := __all__ ns2 ++ ["pjoin"] |}).
  destruct (register_loop def_pipe "itertools" itertools _ ns3
              (class_created s2) Hi itertools_keys_nodup)
    as (ns4 & s4 & R4 & L4 & F4 & A4 & E4).
  destruct (register_loop def_pipe "functools" functools _ ns4 s4 Hf
              functools_keys_nodup)
    as (ns5 & s5 & R5 & L5 & F5 & A5 & E5).
  set (ns6 := {| globals := delete "_g" (globals ns5);
                 __all__ := __all__ ns5 |}).
  assert (T5 : same_outside keys_after_functools ns5 ns6).
  { intros k Hk. simpl. apply lookup_delete_ne.
    intros <-. apply Hk. apply list_elem_of_here. }
  assert (T4 : same_outside keys_after_itertools ns4 ns6).
  { apply (same_outside_trans _ _ _ ns5); [exact F5|exact T5]. }
  assert (T3 : same_outside keys_after_join ns3 ns6).
  { apply (same_outside_trans _ _ _ ns4); [exact F4|exact T4]. }
  assert (T2 : same_outside keys_after_print ns2 ns6).
  { apply (same_outside_trans _ _ _ ns3); [|exact T3].
    intros k [Hk1 [Hk2 _]%not_elem_of_cons]%not_elem_of_cons. simpl.
    by rewrite !lookup_insert_ne. }
  assert (T1 : same_outside keys_after_builtins ns1 ns6).
  { apply (same_outside_trans _ _ _ ns2); [exact F2|exact T2]. }
  exists ns6, s5. split; [|split; [|split; [|repeat split]]].
  - unfold module_init, module_body. fold ns0.
    simpl wrap_with in R1, R2, R4, R5.
    rewrite (bind_return _ _ _ _ _ R1), (bind_return _ _ _ _ _ R2).
    unfold bind at 1. simpl. unfold bind at 1. unfold ret at 1.
    fold w. fold ns3.
    rewrite (bind_return _ _ _ _ _ R4), (bind_return _ _ _ _ _ R5).
    reflexivity.
  - rewrite L5, L4. simpl. by rewrite L2, L1.
  - simpl. rewrite A5, A4. simpl. rewrite A2, A1. reflexivity.
  - exact (exposes_same_outside _ _ _ _ _ _ T1 builtins_pipe_untouched E1).
  - exact (exposes_same_outside _ _ _ _ _ _ T2 builtins_pipestar_untouched
             E2).
  - destruct join_untouched as [U1 U2].
    apply (exposes_frame ns3); [|by apply T3..].
    exists (next_class s2). subst ns3 w. simpl.
    rewrite lookup_insert_ne by done. by rewrite !lookup_insert_eq.
  - exact (exposes_same_outside _ _ _ _ _ _ T4 itertools_untouched E4).
  - exact (exposes_same_outside _ _ _ _ _ _ T5 functools_untouched E5).
Qed.

(** C10. When the standard library has the names the module looks up, the
    module body runs to its end, and the namespace binds every listed
    function twice, under its own name and under ['p'] and its name, to one
    and the same factory around that function: made by [pipe], and by
    [pipestar] for [print]. *)
Theorem registration_table g0 s :
  Forall (fun n => is_Some (builtins !! n))
    (builtins_pipe_names ++ builtins_pipestar_names) ->
  Forall (fun n => is_Some (itertools !! n)) itertools_names ->
  Forall (fun n => is_Some (functools !! n)) functools_names ->
  exists ns s',
    module_init g0 s = (Return ns, s') /\
    (forall n,
       n ∈ ["all"; "any"; "enumerate"; "filter"; "len"; "map"; "min"; "max";
            "reversed"; "set"; "sum"; "tuple"; "zip"] ->
       exists t, builtins !! n = Some t /\ exposes ns n def_pipe t) /\
    (exists t, builtins !! "print" = Some t /\
               exposes ns "print" def_pipestar t) /\
    exposes ns "join" def_pipe str_join /\
    (forall n,
       n ∈ ["accumulate"; "chain"; "compress"; "cycle"; "dropwhile";
            "filterfalse"; "groupby"; "product"; "repeat"; "starmap";
            "takewhile"; "tee"; "zip_longest"] ->
       exists t, itertools !! n = Some t /\ exposes ns n def_pipe t) /\
    (exists t, functools !! "reduce" = Some t /\
               exposes ns "reduce" def_pipe t).
Proof.
  intros Hb Hi Hf.
  destruct (module_init_spec g0 s Hb Hi Hf)
    as (ns & s' & Hrun & _ & _ & E1 & E2 & E3 & E4 & E5).
  exists ns, s'. split; [exact Hrun|]. repeat split.
  - intros n Hn. apply E1.
    revert n Hn. apply Forall_forall. by_evaluation.
  - apply E2. by_evaluation.
  - exact E3.
  - intros n Hn. apply E4.
    revert n Hn. apply Forall_forall. by_evaluation.
  - apply E5. by_evaluation.
Qed.

(** The module also registers [dict] and [list], which the list above
    leaves out. *)
Lemma registration_table_dict_list g0 s :
  Forall (fun n => is_Some (builtins !! n))
    (builtins_pipe_names ++ builtins_pipestar_names) ->
  Forall (fun n => is_Some (itertools !! n)) itertools_names ->
  Forall (fun n => is_Some (functools !! n)) functools_names ->
  exists ns s',
    module_init g0 s = (Return ns, s') /\
    (forall n, n ∈ ["dict"; "list"] ->
       exists t, builtins !! n = Some t /\ exposes ns n def_pipe t).
Proof.
  intros Hb Hi Hf.
  destruct (module_init_spec g0 s Hb Hi Hf)
    as (ns & s' & Hrun & _ & _ & E1 & _).
  exists ns, s'. split; [exact Hrun|].
  intros n Hn. apply E1.
  revert n Hn. apply Forall_forall. by_evaluation.
Qed.


(** When the fold function, given [initial] by keyword, folds [f] over the
    elements of [xs] from [v], so does the pipe expression. *)
Lemma preduce_folds g0 s r f xs els v :
  Forall (fun n => is_Some (builtins !! n))
    (builtins_pipe_names ++ builtins_pipestar_names) ->
  Forall (fun n => is_Some (itertools !! n)) itertools_names ->
  functools !! "reduce" = Some (VFun r) ->
  elements_of xs = Some els ->
  (forall s1, fn_impl r [f; xs] [("initial", v)] s1 = fold_calls f v els s1) ->
  exists ns s' preduce,
    module_init g0 s = (Return ns, s') /\
    globals ns !! "preduce" = Some preduce /\
    forall s2,
      pipe_into xs preduce [f] [("initial", v)] s2
      = fold_calls f v els
          (record_call r [f; xs] [("initial", v)] s2).
Proof.
  intros Hb Hi Hf Hels Hfold.
  destruct (module_init_spec g0 s Hb Hi)
    as (ns & s' & Hrun & _ & _ & _ & _ & _ & _ & E5).
  { repeat constructor. by eexists. }
  destruct (E5 "reduce") as (t & Ht & cls & _ & Hp).
  { by_evaluation. }
  rewrite Hf in Ht. injection Ht as <-.
  exists ns, s', (VFactory cls def_pipe (VFun r)).
  split; [exact Hrun|]. split; [exact Hp|].
  intros s2. rewrite pipe_into_factory.
  rewrite (binary_or_positional cls def_pipe (VFun r) [f]
             [("initial", v)] xs [f; xs]); [|by destruct xs|reflexivity].
  simpl. apply Hfold.
Qed.

(** What [pipe0] does with the piped value: it goes last, as with [pipe]. *)
Lemma pipe0_expr_run f args kwargs x s :
  exists_in s x = true ->
  pipe_expr pipe0 x f args kwargs s
  = call_value f (args ++ [x]) kwargs (class_created s).
Proof. intros Hx. by apply (pipe_expr_positional def_pipe0). Qed.

End PipeitProperties.

(** * Further properties of the code *)

Section PipeitExtras.

Context {env : Env}.

(** ** Any number of captured arguments *)


(** ** A factory is not a capture *)


(** ** Every call of a wrapper makes its own class *)

(** [pf = pipe(f); pg = pipe(f); pf( *args1) | pg( *args2)]: two factories
    around the same function are of two classes, so a capture of the first
    can be piped into a capture of the second, and [f] receives it as its
    last argument. *)
Theorem captures_of_two_factories d f args1 kwargs1 args2 kwargs2 s :
  (pf <- wrap_with d f ;;
   pg <- pipe f ;;
   c1 <- call_value pf args1 kwargs1 ;;
   c2 <- call_value pg args2 kwargs2 ;;
   binary_or c1 c2) s
  = call_value f
      (args2 ++ [VWrapper (next_class s) d f args1 kwargs1]) kwargs2
      (class_created (class_created s)).
Proof.
  unfold bind at 1. rewrite wrap_with_run.
  unfold bind at 1. rewrite (wrap_with_run def_pipe).
  cbn [call_value wrapper Wrapper___new__ bind ret class_created next_class].
  rewrite binary_or_capture.
  cbn [instance_of]. rewrite (proj2 (Nat.eqb_neq _ _)) by lia.
  reflexivity.
Qed.

(** [pf = wrap(f); pf( *args1) | pf( *args2)]: two captures of one factory
    are of one class, which has [__ror__] and no [__or__]; the operator
    raises [TypeError] and [f] is not entered, whatever the wrapper, the
    function and the arguments.  So the captures made through one
    registered name (or through a name and its ['p'] alias) cannot be piped
    into each other. *)
Theorem captures_of_one_factory d f args1 kwargs1 args2 kwargs2 s :
  (pf <- wrap_with d f ;;
   c1 <- call_value pf args1 kwargs1 ;;
   c2 <- call_value pf args2 kwargs2 ;;
   binary_or c1 c2) s
  = (Raise (TypeError
       "unsupported operand type(s) for |: 'Wrapper' and 'Wrapper'"),
     class_created s).
Proof.
  unfold bind at 1. rewrite wrap_with_run.
  cbn [call_value wrapper Wrapper___new__ bind ret].
  rewrite binary_or_capture.
  cbn [instance_of]. by rewrite Nat.eqb_refl.
Qed.

(** ** Chains *)






(** ** The registration code: failure, classes, what is left behind *)

Lemma bind_raise {A B} (m : M A) (k : A -> M B) s e s' :
  m s = (Raise e, s') -> bind m k s = (Raise e, s').
Proof. unfold bind. by intros ->. Qed.

(** A loop over names of which one is missing raises [AttributeError], and
    enters no function on the way. *)
Lemma register_loop_raises d modname module names : forall ns s,
  ~ Forall (fun n => is_Some (module !! n)) names ->
  exists msg s',
    for_each (register (wrap_with d) modname module) ns names s
    = (Raise (AttributeError msg), s') /\
    call_log s' = call_log s.
Proof.
  induction names as [|n rest IH]; intros ns s Hmiss.
  { destruct Hmiss. constructor. }
  destruct (module !! n) as [t|] eqn:Ht.
  - assert (Hrest : ~ Forall (fun n => is_Some (module !! n)) rest).
    { intros Hrest. apply Hmiss. constructor; [by exists t|done]. }
    simpl. rewrite (bind_return _ _ _ _ _ (register_run _ _ _ _ _ _ _ Ht)).
    destruct (IH {| globals :=
                      <["p" +:+ n := VFactory (next_class s) d t]>
                        (<[n := VFactory (next_class s) d t]>
                           (<["name" := VStr n]> (globals ns)));
                    __all__ := __all__ ns ++ ["p" +:+ n] |}
                 (class_created s) Hrest)
      as (msg & s' & Hrun & Hlog).
    by exists msg, s'.
  - eexists _, s. split; [|done].
    simpl. apply bind_raise. unfold register. apply bind_raise.
    unfold getattr. rewrite Ht. reflexivity.
Qed.

(** A loop that ends without an exception found every name. *)
Lemma register_loop_found d modname module names ns s ns' s' :
  for_each (register (wrap_with d) modname module) ns names s
  = (Return ns', s') ->
  Forall (fun n => is_Some (module !! n)) names.
Proof.
  intros Hrun.
  destruct (decide (Forall (fun n => is_Some (module !! n)) names))
    as [|Hmiss]; [done|].
  destruct (register_loop_raises d modname module names ns s Hmiss)
    as (msg & s'' & Hraise & _).
  congruence.
Qed.

(** The classes a loop makes: one for each name, numbered in the order of
    the names; and the loop variable keeps the last name. *)
Lemma register_loop_classes d modname module names : forall ns s ns' s',
  for_each (register (wrap_with d) modname module) ns names s
  = (Return ns', s') ->
  NoDup (written_keys names) ->
  next_class s' = next_class s + length names /\
  (forall i n, names !! i = Some n ->
     exists t, globals ns' !! n = Some (VFactory (next_class s + i) d t)) /\
  (forall n, last names = Some n -> globals ns' !! "name" = Some (VStr n)).
Proof.
  induction names as [|n rest IH]; intros ns s ns' s' Hrun Hnd.
  { injection Hrun as <- <-. simpl. split; [lia|]. by split. }
  pose proof (register_loop_found _ _ _ _ _ _ _ _ Hrun) as Hall.
  apply Forall_cons in Hall as [[t Ht] Hall].
  unfold written_keys in Hnd. simpl in Hnd.
  apply NoDup_cons in Hnd as [Hname Hnd].
  apply NoDup_cons in Hnd as [Hn Hnd].
  apply NoDup_cons in Hnd as [Hpn Hnd].
  apply not_elem_of_cons in Hname as [Hname1 Hname].
  apply not_elem_of_cons in Hname as [Hname2 Hname].
  apply not_elem_of_cons in Hn as [Hn1 Hn].
  assert (Hrest : NoDup (written_keys rest)).
  { unfold written_keys. by apply NoDup_cons. }
  simpl in Hrun.
  rewrite (bind_return _ _ _ _ _ (register_run _ _ _ _ _ _ _ Ht)) in Hrun.
  match type of Hrun with
  | for_each _ ?ns1 _ ?s1 = _ =>
      destruct (register_loop d modname module rest ns1 s1 Hall Hrest)
        as (ns'' & s'' & Hrun' & _ & Hframe & _)
  end.
  rewrite Hrun in Hrun'. injection Hrun' as <- <-.
  destruct (IH _ _ _ _ Hrun Hrest) as (Hnext & Hcls & Hlast).
  split; [|split].
  - rewrite Hnext. simpl. lia.
  - intros [|i] m Hm; simpl in Hm.
    + injection Hm as <-. exists t.
      rewrite Hframe by (apply not_elem_of_cons; split; congruence).
      simpl. rewrite lookup_insert_ne by apply p_name_ne.
      rewrite lookup_insert_eq. do 2 f_equal. lia.
    + destruct (Hcls i m Hm) as (t' & Ht'). exists t'.
      rewrite Ht'. do 2 f_equal. simpl. lia.
  - intros m Hm. destruct rest as [|n' rest'].
    + injection Hm as <-. injection Hrun as <- _. simpl.
      rewrite lookup_insert_ne by congruence.
      rewrite lookup_insert_ne by congruence.
      by rewrite lookup_insert_eq.
    + by apply Hlast.
Qed.

(** The module body, stage by stage: the four loops and the two single
    steps, each with the keys it leaves alone. *)
Lemma module_init_stages g0 s :
  library_complete ->
  exists ns1 s1 ns2 s2 ns4 s4 ns5 s5,
    for_each (register pipe "builtins" builtins)
      {| globals := g0; __all__ := ["pipe"; "pipe0"; "pipestar"] |}
      builtins_pipe_names s = (Return ns1, s1) /\
    for_each (register pipestar "builtins" builtins) ns1
      builtins_pipestar_names s1 = (Return ns2, s2) /\
    for_each (register pipe "itertools" itertools)
      (bind_join ns2 (VFactory (next_class s2) def_pipe str_join))
      itertools_names (class_created s2) = (Return ns4, s4) /\
    for_each (register pipe "functools" functools) ns4
      functools_names s4 = (Return ns5, s5) /\
    module_init g0 s = (Return (del_g ns5), s5) /\
    same_outside module_keys
      {| globals := g0; __all__ := ["pipe"; "pipe0"; "pipestar"] |}
      (del_g ns5) /\
    same_outside keys_after_builtins ns1 (del_g ns5) /\
    same_outside keys_after_print ns2 (del_g ns5) /\
    same_outside keys_after_join
      (bind_join ns2 (VFactory (next_class s2) def_pipe str_join))
      (del_g ns5) /\
    same_outside keys_after_itertools ns4 (del_g ns5) /\
    same_outside keys_after_functools ns5 (del_g ns5).
Proof.
  intros ([Hb1 Hb2]%Forall_app & Hi & Hf).
  set (ns0 := {| globals := g0; __all__ := ["pipe"; "pipe0"; "pipestar"] |}).
  destruct (register_loop def_pipe "builtins" builtins _ ns0 s Hb1
              builtins_pipe_keys_nodup)
    as (ns1 & s1 & R1 & _ & F1 & _).
  destruct (register_loop def_pipestar "builtins" builtins _ ns1 s1 Hb2
              builtins_pipestar_keys_nodup)
    as (ns2 & s2 & R2 & _ & F2 & _).
  set (ns3 := bind_join ns2 (VFactory (next_class s2) def_pipe str_join)).
  destruct (register_loop def_pipe "itertools" itertools _ ns3
              (class_created s2) Hi itertools_keys_nodup)
    as (ns4 & s4 & R4 & _ & F4 & _).
  destruct (register_loop def_pipe "functools" functools _ ns4 s4 Hf
              functools_keys_nodup)
    as (ns5 & s5 & R5 & _ & F5 & _).
  simpl wrap_with in R1, R2, R4, R5.
  assert (T5 : same_outside keys_after_functools ns5 (del_g ns5)).
  { intros k Hk. simpl. apply lookup_delete_ne.
    intros <-. apply Hk. apply list_elem_of_here. }
  assert (T4 : same_outside keys_after_itertools ns4 (del_g ns5)).
  { apply (same_outside_trans _ _ _ ns5); [exact F5|exact T5]. }
  assert (T3 : same_outside keys_after_join ns3 (del_g ns5)).
  { apply (same_outside_trans _ _ _ ns4); [exact F4|exact T4]. }
  assert (T2 : same_outside keys_after_print ns2 (del_g ns5)).
  { apply (same_outside_trans _ _ _ ns3); [|exact T3].
    intros k [Hk1 [Hk2 _]%not_elem_of_cons]%not_elem_of_cons. simpl.
    by rewrite !lookup_insert_ne. }
  assert (T1 : same_outside keys_after_builtins ns1 (del_g ns5)).
  { apply (same_outside_trans _ _ _ ns2); [exact F2|exact T2]. }
  assert (T0 : same_outside module_keys ns0 (del_g ns5)).
  { apply (same_outside_trans _ _ _ ns1); [exact F1|exact T1]. }
  exists ns1, s1, ns2, s2, ns4, s4, ns5, s5.
  split; [exact R1|]. split; [exact R2|]. split; [exact R4|].
  split; [exact R5|].
  split; [|exact (conj T0 (conj T1 (conj T2 (conj T3 (conj T4 T5)))))].
  unfold module_init, module_body. fold ns0.
  rewrite (bind_return _ _ _ _ _ R1), (bind_return _ _ _ _ _ R2).
  unfold bind at 1. simpl. unfold bind at 1. unfold ret at 1.
  change {| globals := _; __all__ := __all__ ns2 ++ ["pjoin"] |} with ns3.
  rewrite (bind_return _ _ _ _ _ R4), (bind_return _ _ _ _ _ R5).
  reflexivity.
Qed.

Lemma lookup_same_outside K ns ns' names n :
  same_outside K ns ns' -> Forall (untouched_by K) names -> n ∈ names ->
  globals ns' !! n = globals ns !! n.
Proof.
  intros Hframe Hun Hn. rewrite Forall_forall in Hun.
  destruct (Hun n Hn) as [H _]. by apply Hframe.
Qed.

Lemma module_init_raises g0 s :
  ~ library_complete ->
  exists msg s',
    module_init g0 s = (Raise (AttributeError msg), s') /\
    call_log s' = call_log s.
Proof.
  intros Hmiss. unfold module_init, module_body.
  set (ns0 := {| globals := g0; __all__ := ["pipe"; "pipe0"; "pipestar"] |}).
  destruct (decide (Forall (fun n => is_Some (builtins !! n))
                      builtins_pipe_names)) as [Hb1|Hb1].
  2: { destruct (register_loop_raises def_pipe "builtins" builtins _ ns0 s
                   Hb1) as (msg & s' & R & L).
       exists msg, s'. split; [|done]. by apply bind_raise. }
  destruct (register_loop def_pipe "builtins" builtins _ ns0 s Hb1
              builtins_pipe_keys_nodup) as (ns1 & s1 & R1 & L1 & _).
  simpl wrap_with in R1. rewrite (bind_return _ _ _ _ _ R1).
  destruct (decide (Forall (fun n => is_Some (builtins !! n))
                      builtins_pipestar_names)) as [Hb2|Hb2].
  2: { destruct (register_loop_raises def_pipestar "builtins" builtins _ ns1
                   s1 Hb2) as (msg & s' & R & L).
       exists msg, s'. split; [by apply bind_raise|]. by rewrite L. }
  destruct (register_loop def_pipestar "builtins" builtins _ ns1 s1 Hb2
              builtins_pipestar_keys_nodup) as (ns2 & s2 & R2 & L2 & _).
  simpl wrap_with in R2. rewrite (bind_return _ _ _ _ _ R2).
  unfold bind at 1. simpl. unfold bind at 1. unfold ret at 1.
  set (ns3 := {| globals := _; __all__ := __all__ ns2 ++ ["pjoin"] |}).
  destruct (decide (Forall (fun n => is_Some (itertools !! n))
                      itertools_names)) as [Hi|Hi].
  2: { destruct (register_loop_raises def_pipe "itertools" itertools _ ns3
                   (class_created s2) Hi) as (msg & s' & R & L).
       exists msg, s'. split; [by apply bind_raise|].
       rewrite L. simpl. by rewrite L2. }
  destruct (register_loop def_pipe "itertools" itertools _ ns3
              (class_created s2) Hi itertools_keys_nodup)
    as (ns4 & s4 & R4 & L4 & _).
  simpl wrap_with in R4. rewrite (bind_return _ _ _ _ _ R4).
  destruct (decide (Forall (fun n => is_Some (functools !! n))
                      functools_names)) as [Hf|Hf].
  2: { destruct (register_loop_raises def_pipe "functools" functools _ ns4
                   s4 Hf) as (msg & s' & R & L).
       exists msg, s'. split; [by apply bind_raise|].
       rewrite L, L4. simpl. by rewrite L2. }
  destruct Hmiss. split; [|exact (conj Hi Hf)].
  apply Forall_app. exact (conj Hb1 Hb2).
Qed.

(** Importing the module succeeds when the standard library has every name
    the registration code looks up, and raises [AttributeError] when one is
    missing.  Either way no function is entered: the registration wraps
    functions, it does not call them. *)
Theorem import_needs_the_library g0 s :
  (library_complete ->
   exists ns s',
     module_init g0 s = (Return ns, s') /\ call_log s' = call_log s) /\
  (~ library_complete ->
   exists msg s',
     module_init g0 s = (Raise (AttributeError msg), s') /\
     call_log s' = call_log s).
Proof.
  split; [|apply module_init_raises].
  intros (Hb & Hi & Hf).
  destruct (module_init_spec g0 s Hb Hi Hf) as (ns & s' & Hrun & Hlog & _).
  by exists ns, s'.
Qed.

(** [__all__] after the import: the three wrappers and the ['p'] aliases,
    in the order of the source.  The plain names the module also binds
    ([map], [filter], ...) are not in it, so a star-import does not shadow
    the builtins. *)
Theorem module_exports g0 s :
  library_complete ->
  exists ns s',
    module_init g0 s = (Return ns, s') /\
    __all__ ns
    = ["pipe"; "pipe0"; "pipestar"; "pall"; "pany"; "pdict"; "penumerate";
       "pfilter"; "plen"; "plist"; "pmin"; "pmap"; "pmax"; "preversed";
       "pset"; "psum"; "ptuple"; "pzip"; "pprint"; "pjoin"; "paccumulate";
       "pchain"; "pcompress"; "pcycle"; "pdropwhile"; "pfilterfalse";
       "pgroupby"; "pproduct"; "prepeat"; "pstarmap"; "ptakewhile"; "ptee";
       "pzip_longest"; "preduce"] /\
    (forall n, n ∈ all_registered ->
               (n ∉ __all__ ns) /\ ("p" +:+ n ∈ __all__ ns)).
Proof.
  intros (Hb & Hi & Hf).
  destruct (module_init_spec g0 s Hb Hi Hf) as (ns & s' & Hrun & _ & Hall & _).
  exists ns, s'. split; [exact Hrun|].
  rewrite Hall. split; [reflexivity|].
  apply Forall_forall. by_evaluation.
Qed.

Lemma length_builtins_pipe_names : length builtins_pipe_names = 15.
Proof. reflexivity. Qed.

Lemma length_builtins_pipestar_names : length builtins_pipestar_names = 1.
Proof. reflexivity. Qed.

Lemma length_itertools_names : length itertools_names = 13.
Proof. reflexivity. Qed.

Lemma length_functools_names : length functools_names = 1.
Proof. reflexivity. Qed.

Lemma all_registered_unfold :
  all_registered
  = builtins_pipe_names ++ builtins_pipestar_names ++ ["join"]
    ++ itertools_names ++ functools_names.
Proof. reflexivity. Qed.

(** The class of every registered name, by its position in the source. *)
Lemma module_init_classes g0 s :
  library_complete ->
  exists ns s',
    module_init g0 s = (Return ns, s') /\
    next_class s' = next_class s + 31 /\
    (forall i n, all_registered !! i = Some n ->
       exists d t, globals ns !! n = Some (VFactory (next_class s + i) d t)).
Proof.
  intros Hlib.
  destruct (module_init_stages g0 s Hlib)
    as (ns1 & s1 & ns2 & s2 & ns4 & s4 & ns5 & s5
        & R1 & R2 & R4 & R5 & Hrun & _ & T1 & T2 & T3 & T4 & T5).
  destruct (register_loop_classes def_pipe _ _ _ _ _ _ _ R1
              builtins_pipe_keys_nodup) as (N1 & C1 & _).
  destruct (register_loop_classes def_pipestar _ _ _ _ _ _ _ R2
              builtins_pipestar_keys_nodup) as (N2 & C2 & _).
  destruct (register_loop_classes def_pipe _ _ _ _ _ _ _ R4
              itertools_keys_nodup) as (N4 & C4 & _).
  destruct (register_loop_classes def_pipe _ _ _ _ _ _ _ R5
              functools_keys_nodup) as (N5 & C5 & _).
  rewrite length_builtins_pipe_names in N1.
  rewrite length_builtins_pipestar_names in N2.
  rewrite length_itertools_names in N4.
  rewrite length_functools_names in N5.
  simpl in N4.
  exists (del_g ns5), s5. split; [exact Hrun|]. split; [lia|].
  intros i n Hn. rewrite all_registered_unfold in Hn.
  apply lookup_app_Some in Hn as [Hn|[Hi Hn]].
  { destruct (C1 i n Hn) as (t & Ht). exists def_pipe, t.
    rewrite (lookup_same_outside _ _ _ _ n T1 builtins_pipe_untouched)
      by by eapply list_elem_of_lookup_2.
    exact Ht. }
  rewrite length_builtins_pipe_names in Hi, Hn.
  apply lookup_app_Some in Hn as [Hn|[Hi2 Hn]].
  { destruct (C2 _ n Hn) as (t & Ht). exists def_pipestar, t.
    rewrite (lookup_same_outside _ _ _ _ n T2 builtins_pipestar_untouched)
      by by eapply list_elem_of_lookup_2.
    rewrite Ht. do 2 f_equal. lia. }
  rewrite length_builtins_pipestar_names in Hi2, Hn.
  apply lookup_app_Some in Hn as [Hn|[Hi3 Hn]].
  { destruct (i - 15 - 1) as [|j] eqn:Hj; [|done].
    injection Hn as <-. exists def_pipe, str_join.
    destruct join_untouched as [U _].
    rewrite (T3 "join" U). simpl.
    rewrite lookup_insert_ne by done. rewrite lookup_insert_eq.
    do 2 f_equal. lia. }
  cbn [length] in Hi3, Hn.
  apply lookup_app_Some in Hn as [Hn|[Hi4 Hn]].
  { destruct (C4 _ n Hn) as (t & Ht). exists def_pipe, t.
    rewrite (lookup_same_outside _ _ _ _ n T4 itertools_untouched)
      by by eapply list_elem_of_lookup_2.
    rewrite Ht. simpl. do 2 f_equal. lia. }
  rewrite length_itertools_names in Hi4, Hn.
  destruct (C5 _ n Hn) as (t & Ht). exists def_pipe, t.
  rewrite (lookup_same_outside _ _ _ _ n T5 functools_untouched)
    by by eapply list_elem_of_lookup_2.
  rewrite Ht. do 2 f_equal. lia.
Qed.

(** The import makes 31 classes, one for each registered name, numbered in
    the order of the source; so two different registered names are bound to
    factories of two different classes, and a capture made through one name
    is never an instance of the class behind another. *)
Theorem registered_names_have_own_classes g0 s :
  library_complete ->
  exists ns s',
    module_init g0 s = (Return ns, s') /\
    next_class s' = next_class s + 31 /\
    (forall n1 n2 cls d1 t1 d2 t2,
       n1 ∈ all_registered -> n2 ∈ all_registered ->
       globals ns !! n1 = Some (VFactory cls d1 t1) ->
       globals ns !! n2 = Some (VFactory cls d2 t2) ->
       n1 = n2).
Proof.
  intros Hlib.
  destruct (module_init_classes g0 s Hlib) as (ns & s' & Hrun & Hnext & Hcls).
  exists ns, s'. split; [exact Hrun|]. split; [exact Hnext|].
  intros n1 n2 cls d1 t1 d2 t2
         [i1 H1]%list_elem_of_lookup_1 [i2 H2]%list_elem_of_lookup_1 L1 L2.
  destruct (Hcls i1 n1 H1) as (d1' & t1' & E1).
  destruct (Hcls i2 n2 H2) as (d2' & t2' & E2).
  rewrite E1 in L1. rewrite E2 in L2.
  injection L1 as L1 _ _. injection L2 as L2 _ _.
  assert (i1 = i2) as -> by lia. congruence.
Qed.


End PipeitExtras.

(** ** Evaluations in the concrete environment *)

Section Evaluations.

Import Example.

(** C1. The docstring of [pipe0] promises
    [xs | pipe0(func)(a, b) = func(xs, a, b)].  With [probe], which returns
    its arguments, [0 | pipe0(probe)(1, 2)] evaluates to what
    [probe(1, 2, 0)] returns, and that is not what [probe(0, 1, 2)]
    returns. *)
Theorem pipe0_puts_piped_value_last :
  fst (@pipe_expr py_env pipe0 (VInt 0) (VFun "probe") [VInt 1; VInt 2] [] s0)
  = Return (VTuple [VTuple [VInt 1; VInt 2; VInt 0]; VList []])
  /\ fst (@call_value py_env (VFun "probe") [VInt 0; VInt 1; VInt 2] []
            (class_created s0))
     = Return (VTuple [VTuple [VInt 0; VInt 1; VInt 2]; VList []]).
Proof. split; reflexivity. Qed.

(** The doctest of [pipe0] (lines 75-79) expects [15]; the code calls
    [add_if_less(6, range(10))] and the function fails on [for x in 6]. *)
Example pipe0_doctest_fails :
  fst (@pipe_expr py_env pipe0 range10 (VFun "add_if_less0") [VInt 6] [] s0)
  = Raise (TypeError "'int' object is not iterable").
Proof. reflexivity. Qed.

(** The doctest of [pipe] (lines 36-40) passes. *)
Example pipe_doctest_passes :
  fst (@pipe_expr py_env pipe range10 (VFun "add_if_less") [VInt 6] [] s0)
  = Return (VInt 15).
Proof. reflexivity. Qed.

(** Errors surface at application: [pipe(5)(1)] makes a capture although
    [5] is not callable; piping [0] into it is what raises. *)
Example errors_surface_at_application :
  @call_value py_env (VFactory 0 def_pipe (VInt 5)) [VInt 1] [] s1
  = (Return (VWrapper 0 def_pipe (VInt 5) [VInt 1] []), s1)
  /\ @pipe_expr py_env pipe (VInt 0) (VInt 5) [VInt 1] [] s0
     = (Raise (TypeError "'int' object is not callable"), s1).
Proof. split; reflexivity. Qed.







(** The standard library of the examples has every name the module looks
    up. *)
Lemma registration_table_witness :
  Forall (fun n => is_Some (@builtins py_env !! n))
    (builtins_pipe_names ++ builtins_pipestar_names) /\
  Forall (fun n => is_Some (@itertools py_env !! n)) itertools_names /\
  Forall (fun n => is_Some (@functools py_env !! n)) functools_names /\
  exists ns s',
    @module_init py_env ∅ s0 = (Return ns, s') /\
    exposes ns "filter" def_pipe (VFun "builtins.filter") /\
    exposes ns "print" def_pipestar (VFun "builtins.print") /\
    exposes ns "join" def_pipe (VFun "str.join") /\
    exposes ns "chain" def_pipe (VFun "itertools.chain") /\
    exposes ns "reduce" def_pipe (VFun "functools.reduce").
Proof.
  assert (Hb : Forall (fun n => is_Some (@builtins py_env !! n))
                 (builtins_pipe_names ++ builtins_pipestar_names)).
  { by_evaluation. }
  assert (Hi : Forall (fun n => is_Some (@itertools py_env !! n))
                 itertools_names).
  { by_evaluation. }
  assert (Hf : Forall (fun n => is_Some (@functools py_env !! n))
                 functools_names).
  { by_evaluation. }
  split; [exact Hb|]. split; [exact Hi|]. split; [exact Hf|].
  destruct (@registration_table py_env ∅ s0 Hb Hi Hf)
    as (ns & s' & Hrun & E1 & (t2 & H2 & E2) & E3 & E4 & (t5 & H5 & E5)).
  destruct (E1 "filter") as (t1 & H1 & E1').
  { by_evaluation. }
  destruct (E4 "chain") as (t4 & H4 & E4').
  { by_evaluation. }
  vm_compute in H1, H2, H4, H5.
  injection H1 as <-. injection H2 as <-.
  injection H4 as <-. injection H5 as <-.
  exists ns, s'. repeat split; assumption.
Defined.


Lemma preduce_example_aux :
  exists ns s' preduce,
    @module_init py_env ∅ s0 = (Return ns, s') /\
    globals ns !! "preduce" = Some preduce /\
    forall s2,
      @pipe_into py_env (VList [VInt 1; VInt 2; VInt 3]) preduce
        [VFun "add"] [("initial", VInt 10)] s2
      = @fold_calls py_env (VFun "add") (VInt 10) [VInt 1; VInt 2; VInt 3]
          (record_call "functools.reduce"
             [VFun "add"; VList [VInt 1; VInt 2; VInt 3]]
             [("initial", VInt 10)] s2).
Proof.
  apply (@preduce_folds py_env).
  - by_evaluation.
  - by_evaluation.
  - vm_compute. reflexivity.
  - reflexivity.
  - intros s1. reflexivity.
Qed.

(** With the stand-in for [functools.reduce], the expression evaluates to
    [((10 + 1) + 2) + 3]. *)
Example preduce_example :
  exists ns s' preduce,
    @module_init py_env ∅ s0 = (Return ns, s') /\
    globals ns !! "preduce" = Some preduce /\
    fst (@pipe_into py_env (VList [VInt 1; VInt 2; VInt 3]) preduce
           [VFun "add"] [("initial", VInt 10)] s')
    = Return (VInt 16).
Proof.
  destruct preduce_example_aux
    as (ns & s' & preduce & Hrun & Hp & Hpipe).
  exists ns, s', preduce. split; [exact Hrun|]. split; [exact Hp|].
  rewrite Hpipe. reflexivity.
Qed.




(** The import in the environment of the examples, and with a library that
    lacks [itertools.zip_longest]. *)
Lemma import_needs_the_library_witness :
  @library_complete py_env /\
  (exists ns s',
     @module_init py_env ∅ s0 = (Return ns, s') /\
     call_log s' = call_log s0) /\
  ~ @library_complete bare_env /\
  (exists msg s',
     @module_init bare_env ∅ s0 = (Raise (AttributeError msg), s') /\
     call_log s' = call_log s0).
Proof.
  assert (Hpy : @library_complete py_env) by library_by_evaluation.
  assert (Hbare : ~ @library_complete bare_env).
  { unfold library_complete. by_evaluation. }
  split; [exact Hpy|]. split.
  { apply (proj1 (@import_needs_the_library py_env ∅ s0) Hpy). }
  split; [exact Hbare|].
  apply (proj2 (@import_needs_the_library bare_env ∅ s0) Hbare).
Defined.

Lemma module_exports_witness :
  @library_complete py_env /\
  exists ns s',
    @module_init py_env ∅ s0 = (Return ns, s') /\
    "pmap" ∈ __all__ ns /\ "map" ∉ __all__ ns.
Proof.
  assert (Hpy : @library_complete py_env) by library_by_evaluation.
  split; [exact Hpy|].
  destruct (@module_exports py_env ∅ s0 Hpy) as (ns & s' & Hrun & _ & Hall).
  exists ns, s'. split; [exact Hrun|].
  destruct (Hall "map") as [H1 H2]; [by_evaluation|].
  split; [exact H2|exact H1].
Defined.

Lemma registered_names_have_own_classes_witness :
  @library_complete py_env /\
  exists ns s',
    @module_init py_env ∅ s0 = (Return ns, s') /\
    next_class s' = 31 /\
    (forall cls d1 t1 d2 t2,
       globals ns !! "filter" = Some (VFactory cls d1 t1) ->
       globals ns !! "map" = Some (VFactory cls d2 t2) ->
       False).
Proof.
  assert (Hpy : @library_complete py_env) by library_by_evaluation.
  split; [exact Hpy|].
  destruct (@registered_names_have_own_classes py_env ∅ s0 Hpy)
    as (ns & s' & Hrun & Hnext & Hown).
  exists ns, s'. split; [exact Hrun|]. split; [exact Hnext|].
  intros cls d1 t1 d2 t2 H1 H2.
  assert (Heq : "filter" = "map"); [|discriminate Heq].
  apply (Hown "filter" "map" cls d1 t1 d2 t2); [by_evaluation..|done|done].
Defined.


End Evaluations.
